(** * Text-To-QR: a shallow embedding of [app.py]

    The program is a Flask application with one form handler ([home]), an
    encoder adapter ([generate_qr_code]) around the third-party [qrcode]
    library, a helper reading truthy environment values ([is_truthy]) and a
    start-up block reading three settings from the environment.

    Python values are embedded as follows.
    - [str] is a sequence of Unicode code points: [pystr := list N].
      [len] is [length], [str.strip] and [str.lower] are defined below.
    - [io.BytesIO] is a record of its content and stream position.
    - Exceptions and the calls made to the encoder are threaded through a
      small monad [Py]: an error monad over a log of the adapter's calls.
    - A dictionary is a [gmap], a set literal a [gset], the form fields and
      the header fields are association lists (order and repeats matter).
    - The framework is written out as far as the handler relies on it:
      how a view's return value or exception becomes a response, and how a
      header field is set.
    - What lives outside the repository and is not fixed by the program
      (the QR/PNG library, the case tables of the non-ASCII characters,
      [int] on strings, the header fields the framework adds to a file
      response) is a section variable: the theorems hold for every choice. *)

From stdpp Require Import base numbers list strings gmap.
From Stdlib Require Import Strings.Ascii Strings.Byte.

Local Open Scope N_scope.

(** ** Python strings *)

Module PyStr.

(** A [str] is its sequence of code points; [len] is [length]. *)
Abbreviation pystr := (list N).

(** A source literal, read as the code points of its characters. *)
Definition lit (s : string) : pystr :=
  map N_of_ascii (String.list_ascii_of_string s).

(** [str.isspace] on one code point: the characters CPython classifies
    as whitespace ([_PyUnicode_IsWhitespace]). *)
Definition isspace (c : N) : bool :=
  ((0x09 <=? c) && (c <=? 0x0D))
  || ((0x1C <=? c) && (c <=? 0x20))
  || (c =? 0x85) || (c =? 0xA0) || (c =? 0x1680)
  || ((0x2000 <=? c) && (c <=? 0x200A))
  || (c =? 0x2028) || (c =? 0x2029) || (c =? 0x202F)
  || (c =? 0x205F) || (c =? 0x3000).

(** [s.lstrip()]: drop the leading whitespace. *)
Fixpoint lstrip (s : pystr) : pystr :=
  match s with
  | [] => []
  | c :: r => if isspace c then lstrip r else s
  end.

(** [s.rstrip()]: drop the trailing whitespace. *)
Fixpoint rstrip (s : pystr) : pystr :=
  match s with
  | [] => []
  | c :: r =>
      match rstrip r with
      | [] => if isspace c then [] else [c]
      | r' => c :: r'
      end
  end.

(** [s.strip()]: CPython advances an index from the left over
    whitespace, then one from the right, and returns the slice. *)
Definition strip (s : pystr) : pystr := rstrip (lstrip s).

(** ASCII part of [str.lower]. *)
Definition ascii_lower (c : N) : N :=
  if (0x41 <=? c) && (c <=? 0x5A) then c + 32 else c.

(** [do_lower] of CPython: each character is mapped in turn. An ASCII
    character maps to its ASCII lower case; for any other code point the
    mapping comes from the Unicode character database [lower_ucs4], which
    is given the characters before and after (the final-sigma rule reads
    them) and may answer with several code points. *)
Fixpoint do_lower (lower_ucs4 : pystr -> N -> pystr -> pystr)
    (before s : pystr) : pystr :=
  match s with
  | [] => []
  | c :: r =>
      (if c <? 0x80 then [ascii_lower c] else lower_ucs4 before c r)
        ++ do_lower lower_ucs4 (before ++ [c]) r
  end.

(** [s.lower()]. *)
Definition lower (lower_ucs4 : pystr -> N -> pystr -> pystr) (s : pystr) : pystr :=
  do_lower lower_ucs4 [] s.

(** All characters of [ws] are whitespace (the empty string included). *)
Definition blank (ws : pystr) : Prop := Forall (fun c => isspace c = true) ws.

(** [s] neither starts nor ends with whitespace. *)
Definition trimmed (s : pystr) : Prop :=
  (forall c r, s = c :: r -> isspace c = false)
  /\ (forall c r, s = r ++ [c] -> isspace c = false).

(** Number of bytes of the UTF-8 encoding of one code point. *)
Definition utf8_len (c : N) : N :=
  if c <? 0x80 then 1 else if c <? 0x800 then 2 else if c <? 0x10000 then 3 else 4.

End PyStr.
Export PyStr.

(** ** [io.BytesIO] *)

Module BytesIO.

(** An in-memory binary stream: its bytes and the stream position. *)
Record t := mk { getvalue : list Byte.byte; tell : nat }.

(** [io.BytesIO()]. *)
Definition empty : t := mk [] 0.

(** [buffer.write(b)]: the bytes go in at the position (the stream is
    padded with zero bytes when the position is past its end), what they
    cover is replaced, and the position moves past them. *)
Definition write (buffer : t) (b : list Byte.byte) : t :=
  let old := getvalue buffer in
  let pos := tell buffer in
  mk (take pos old ++ replicate (pos - length old) Byte.x00 ++ b
        ++ drop (pos + length b) old)
     (pos + length b).

(** [buffer.seek(pos)]. *)
Definition seek (buffer : t) (pos : nat) : t := mk (getvalue buffer) pos.

(** What a reader draining the stream receives: the bytes from the
    position to the end. *)
Definition remaining (buffer : t) : list Byte.byte :=
  drop (tell buffer) (getvalue buffer).

End BytesIO.

(** The eight bytes every PNG file starts with. *)
Definition png_signature : list Byte.byte :=
  [Byte.x89; Byte.x50; Byte.x4e; Byte.x47; Byte.x0d; Byte.x0a; Byte.x1a; Byte.x0a].

(** ** Exceptions and the call log *)

(** The exceptions of the program: werkzeug's [BadRequest], [ValueError]
    (from [int]), and whatever the QR/imaging library raises, kept by its
    class name. *)
Inductive exn :=
| BadRequest (description : string)
| ValueError
| LibraryError (class_name : string).

(** The arguments of the calls made to [generate_qr_code], oldest first. *)
Abbreviation call_log := (list pystr).

(** A computation either returns or raises, and extends the call log. *)
Definition Py (A : Type) : Type := call_log -> (exn + A) * call_log.

#[global] Instance Py_ret : MRet Py := fun A (a : A) log => (inr a, log).

#[global] Instance Py_bind : MBind Py := fun A B (f : A -> Py B) (m : Py A) log =>
  match m log with
  | (inr a, log') => f a log'
  | (inl e, log') => (inl e, log')
  end.

(** [raise e]. *)
Definition raise {A} (e : exn) : Py A := fun log => (inl e, log).

(** Record that the encoder adapter was entered with [data]. *)
Definition entered (data : pystr) : Py unit := fun log => (inr tt, log ++ [data]).

(** A call into the library: its exception, if any, propagates. *)
Definition library_call {A} (r : string + A) : Py A :=
  match r with
  | inr a => mret a
  | inl name => raise (LibraryError name)
  end.

(** ** The [qrcode] library, as the adapter drives it *)

(** Everything [generate_qr_code] hands to the library: the constructor
    arguments of [QRCode], the payload of [add_data], the [fit] flag of
    [make], the colours of [make_image] and the format of [img.save]. *)
Record qr_job := {
  qr_version : N;
  qr_box_size : N;
  qr_border : N;
  qr_data : pystr;
  qr_fit : bool;
  qr_fill_color : string;
  qr_back_color : string;
  qr_format : string
}.

(** The library, from constructor to [img.save]: the bytes it writes to
    the stream, or the class name of the exception it raises. *)
Abbreviation qr_library := (qr_job -> string + list Byte.byte).

(** ** The web framework, as the handler uses it *)

Module Flask.

(** Header names compare without regard to ASCII case. *)
Fixpoint lower_name (s : string) : string :=
  match s with
  | EmptyString => EmptyString
  | String a r => String (ascii_of_N (ascii_lower (N_of_ascii a))) (lower_name r)
  end.

Definition same_name (a b : string) : bool := String.eqb (lower_name a) (lower_name b).

(** werkzeug's [Headers]: an ordered list of name/value pairs. *)
Abbreviation headers := (list (string * string)).

(** [headers[name] = value]: the first field of that name is replaced,
    further ones are removed; without one the field is appended. *)
Fixpoint headers_set (name value : string) (hs : headers) : headers :=
  match hs with
  | [] => [(name, value)]
  | (n, v) :: r =>
      if same_name n name
      then (name, value) :: List.filter (fun f => negb (same_name (fst f) name)) r
      else (n, v) :: headers_set name value r
  end.

(** [headers.getlist(name)]: every value sent under that name. *)
Definition headers_getlist (name : string) (hs : headers) : list string :=
  map snd (List.filter (fun f => same_name (fst f) name) hs).

(** What a response carries as its body. Page rendering is the
    framework's: a page is kept as what it is rendered from. *)
Inductive body :=
| Stream (data : list Byte.byte)            (* a file sent from a stream *)
| Json (object : gmap string string)        (* jsonify(dict) *)
| Template (name : string)                  (* render_template(name) *)
| ErrorPage (description : string).         (* the page of an HTTPException *)

Record Response := {
  status : N;
  mimetype : string;
  hdrs : headers;
  content : body
}.

(** [jsonify(object)]. *)
Definition jsonify (object : gmap string string) : Response :=
  {| status := 200; mimetype := "application/json"; hdrs := []; content := Json object |}.

(** [send_file(stream, mimetype=.., as_attachment=.., download_name=..)]:
    the stream is sent from its current position; an attachment gets a
    [Content-Disposition] field naming the file. [extra] stands for the
    other fields the framework adds on its own. *)
Definition send_file (extra : headers) (stream : BytesIO.t) (mime : string)
    (as_attachment : bool) (download_name : string) : Response :=
  {| status := 200;
     mimetype := mime;
     hdrs := (if as_attachment
              then [("Content-Disposition", "attachment; filename=" +:+ download_name)]
              else []) ++ extra;
     content := Stream (BytesIO.remaining stream) |}.

(** [response.headers[name] = value]. *)
Definition set_header (name value : string) (r : Response) : Response :=
  {| status := status r; mimetype := mimetype r;
     hdrs := headers_set name value (hdrs r); content := content r |}.

(** The request, as far as the handler reads it: the method and the form
    fields in the order they were sent (a field may repeat). *)
Record Request := { method : string; form : list (pystr * pystr) }.

(** [request.form.get(key, default)]: the first value sent under [key]. *)
Fixpoint form_get (fields : list (pystr * pystr)) (key default : pystr) : pystr :=
  match fields with
  | [] => default
  | (k, v) :: r => if decide (k = key) then v else form_get r key default
  end.

(** What a view function may return. *)
Inductive view_rv :=
| Html (page : body)                       (* return render_template(..) *)
| Resp (r : Response)                      (* return response *)
| RespStatus (r : Response) (code : N).    (* return response, code *)

(** The framework's part of a request: the view's return value is made
    into a response; an [HTTPException] becomes its error page with its
    own status; any other exception becomes a server error. *)
Definition finalize_request (outcome : exn + view_rv) : Response :=
  match outcome with
  | inr (Html page) =>
      {| status := 200; mimetype := "text/html"; hdrs := []; content := page |}
  | inr (Resp r) => r
  | inr (RespStatus r code) =>
      {| status := code; mimetype := mimetype r; hdrs := hdrs r; content := content r |}
  | inl (BadRequest description) =>
      {| status := 400; mimetype := "text/html"; hdrs := [];
         content := ErrorPage description |}
  | inl _ =>
      {| status := 500; mimetype := "text/html"; hdrs := [];
         content := ErrorPage "Internal Server Error" |}
  end.

End Flask.
Export Flask.

(** ** The capacity of a QR symbol *)

(** The UTF-8 bytes of the payload that lie outside ASCII. The library
    encodes a string payload as UTF-8, and such bytes can only be written
    in byte mode, eight bits each. *)
Definition non_ascii_bytes (payload : pystr) : N :=
  foldr (fun c n => (if c <? 0x80 then 0 else utf8_len c) + n) 0 payload.

(** The data bits of the largest symbol (version 40) at the weakest error
    correction: 2956 code words. *)
Definition max_data_bits : N := 23648.

(** The payload fits no symbol, whatever the error correction level. *)
Definition overflows (payload : pystr) : bool :=
  max_data_bits <? 8 * non_ascii_bytes payload.

(** A library that, like [qrcode], raises [DataOverflowError] from
    [make(fit=True)] when no version holds the data, and otherwise does as
    [inner] does. *)
Definition capacity_checked (inner : qr_library) : qr_library :=
  fun job => if overflows (qr_data job) then inl "DataOverflowError" else inner job.

(** A library that answers every job with the same eight bytes. *)
Definition fixed_png_library : qr_library := fun _ => inr png_signature.

(** A case table that leaves every non-ASCII code point as it is. *)
Definition no_case : pystr -> N -> pystr -> pystr := fun _ c _ => [c].

(** ** The application *)

Section App.

(** The QR/imaging library behind the adapter. *)
Variable qrcode : qr_library.
(** The lower-case mapping of the non-ASCII code points. *)
Variable lower_ucs4 : pystr -> N -> pystr -> pystr.
(** [int(s)] for a string [s]; [None] when it raises [ValueError]. *)
Variable int_of_str : pystr -> option Z.
(** The header fields the framework adds to a file response on its own. *)
Variable file_headers : headers.

(** What [generate_qr_code(data)] asks of the library, lines 59-65. *)
Definition adapter_job (data : pystr) : qr_job :=
  {| qr_version := 1; qr_box_size := 10; qr_border := 5;   (* QRCode(version=1, box_size=10, border=5) *)
     qr_data := strip data;                                 (* qr.add_data(data.strip()) *)
     qr_fit := true;                                        (* qr.make(fit=True) *)
     qr_fill_color := "black"; qr_back_color := "white";    (* qr.make_image(..) *)
     qr_format := "PNG" |}.                                 (* img.save(buffer, format="PNG") *)

(** [generate_qr_code(data)]: the library writes the image into a fresh
    stream, which is rewound and returned. *)
Definition generate_qr_code (data : pystr) : Py BytesIO.t :=
  entered data ;;
  png ← library_call (qrcode (adapter_job data));
  let buffer := BytesIO.empty in                           (* buffer = io.BytesIO() *)
  let buffer := BytesIO.write buffer png in                (* img.save(buffer, ..) *)
  let buffer := BytesIO.seek buffer 0 in                   (* buffer.seek(0) *)
  mret buffer.

(** The set literal of [is_truthy]. *)
Definition truthy_forms : gset pystr :=
  {[ lit "true"; lit "1"; lit "t"; lit "yes"; lit "y" ]}.

(** [is_truthy(value)]; [str(value)] is [value] itself for a string. *)
Definition is_truthy (value : pystr) : bool :=
  bool_decide (lower lower_ucs4 value ∈ truthy_forms).

(** [home()]: the view function of the route ["/"]. *)
Definition home (request : Request) : Py view_rv :=
  if String.eqb (method request) "POST" then
    let data := strip (form_get (form request) (lit "data") (lit "")) in
    match data with
    | [] =>                                                  (* if not data *)
        mret (RespStatus
                (jsonify {[ "error" := "No text provided for QR generation." ]}) 400)
    | _ :: _ =>
        if (1000 <? length data)%nat then                    (* if len(data) > 1000 *)
          raise (BadRequest "Input too long. Please limit text to 1000 characters.")
        else
          qr_stream ← generate_qr_code data;
          let response := send_file file_headers qr_stream "image/png" true "qrcode.png" in
          let response := set_header "Cache-Control" "no-store" response in
          mret (Resp response)
    end
  else mret (Html (Template "index.html")).

(** [about()] and [contact()]: the two static pages. *)
Definition about : Py view_rv := mret (Html (Template "about.html")).

Definition contact : Py view_rv := mret (Html (Template "contact.html")).

(** One request to ["/"], start to finish: the view runs, the framework
    turns its outcome into the response. The call log is threaded through. *)
Definition serve_home (request : Request) (log : call_log) : Response * call_log :=
  let (outcome, log') := home request log in (finalize_request outcome, log').

(** [os.environ] once [load_dotenv()] has run. *)
Abbreviation environ := (gmap string pystr).

(** [os.getenv(key, default)] with a string as the default. *)
Definition getenv (env : environ) (key : string) (default : pystr) : pystr :=
  match env !! key with
  | Some v => v
  | None => default
  end.

(** [os.getenv(key, default)] with an integer as the default: the result
    is the string of the environment or that integer. *)
Definition getenv_int (env : environ) (key : string) (default : Z) : pystr + Z :=
  match env !! key with
  | Some v => inl v
  | None => inr default
  end.

(** [int(x)]: parsing for a string, the identity on an integer. *)
Definition int_ (x : pystr + Z) : option Z :=
  match x with
  | inl s => int_of_str s
  | inr n => Some n
  end.

(** The settings handed to [app.run]. *)
Record Config := { debug_mode : bool; host : pystr; port : Z }.

(** The entry point, lines 151-153: [None] when [int] raises. The port's
    default is the integer 5000, on which [int] is the identity; a value
    from the environment is a string and is parsed. *)
Definition startup (env : environ) : option Config :=
  let debug_mode := is_truthy (getenv env "IS_DEBUG" (lit "False")) in
  let host := getenv env "FLASK_RUN_HOST" (lit "0.0.0.0") in
  port ← int_ (getenv_int env "FLASK_RUN_PORT" 5000);
  Some {| debug_mode := debug_mode; host := host; port := port |}.

(** ** The responses of the handler *)

(** The answer to an empty submission. *)
Definition empty_input_response : Response :=
  {| status := 400; mimetype := "application/json"; hdrs := [];
     content := Json {[ "error" := "No text provided for QR generation." ]} |}.

(** The answer to an oversized submission: the page of [BadRequest]. *)
Definition too_long_response : Response :=
  {| status := 400; mimetype := "text/html"; hdrs := [];
     content := ErrorPage "Input too long. Please limit text to 1000 characters." |}.

(** The answer when the library raised. *)
Definition server_error_response : Response :=
  {| status := 500; mimetype := "text/html"; hdrs := [];
     content := ErrorPage "Internal Server Error" |}.

(** The answer delivering [png] as the file [qrcode.png]. *)
Definition qr_response (png : list Byte.byte) : Response :=
  {| status := 200; mimetype := "image/png";
     hdrs := headers_set "Cache-Control" "no-store"
               (("Content-Disposition", "attachment; filename=qrcode.png") :: file_headers);
     content := Stream png |}.

(** The [data] field of a submission, trimmed: what the handler works on. *)
Definition trimmed_data (request : Request) : pystr :=
  strip (form_get (form request) (lit "data") (lit "")).

(** A POST of the single field [data]. *)
Definition post (data : pystr) : Request :=
  {| method := "POST"; form := [(lit "data", data)] |}.

(** Three payloads beyond the capacity of any symbol: a thousand euro
    signs (three bytes each in UTF-8), a thousand grinning faces (four
    bytes each) and three thousand letters e with acute (two bytes each). *)
Definition euro_1000 : pystr := replicate 1000 0x20AC.
Definition grin_1000 : pystr := replicate 1000 0x1F600.
Definition e_acute_3000 : pystr := replicate 3000 0xE9.

(** The truthy forms, in the order the source lists them. *)
Definition truthy_list : list pystr :=
  [lit "true"; lit "1"; lit "t"; lit "yes"; lit "y"].

(** The answer to a page view: the input form. *)
Definition form_page : Response :=
  {| status := 200; mimetype := "text/html"; hdrs := [];
     content := Template "index.html" |}.

(** The raw [data] field of a submission, as [request.form.get] reads it. *)
Definition raw_data (request : Request) : pystr :=
  form_get (form request) (lit "data") (lit "").

(** The header fields of the file response as [send_file] leaves them,
    before the handler sets [Cache-Control]. *)
Definition sent_file_headers : headers :=
  ("Content-Disposition", "attachment; filename=qrcode.png") :: file_headers.

(** A parser of plain decimal digits, to stand for [int] on strings where
    a concrete one is needed: no sign, no blanks, no separators. *)
Definition decimal (s : pystr) : option Z :=
  match s with
  | [] => None
  | _ :: _ =>
      foldl (fun acc c =>
               n ← acc;
               if (0x30 <=? c) && (c <=? 0x39)
               then Some (10 * n + Z.of_N (c - 0x30))%Z
               else None)
            (Some 0%Z) s
  end.

(** An environment that sets the three variables. *)
Definition sample_environ : gmap string pystr :=
  {[ "IS_DEBUG" := lit "Yes"; "FLASK_RUN_HOST" := lit "127.0.0.1";
     "FLASK_RUN_PORT" := lit "8080" ]}.

(** ** Facts about [strip] *)

Lemma lstrip_blank (s : pystr) : blank s -> lstrip s = [].
Proof.
  induction 1 as [|c r Hc _ IH]; simpl; [done|]. by rewrite Hc.
Qed.

Lemma lstrip_nil_blank (s : pystr) : lstrip s = [] -> blank s.
Proof.
  induction s as [|c r IH]; simpl; [constructor|].
  destruct (isspace c) eqn:Hc; [|done].
  intros Hr. apply Forall_cons. split; [done|by apply IH].
Qed.

Lemma lstrip_head (s : pystr) c r : lstrip s = c :: r -> isspace c = false.
Proof.
  induction s as [|a s IH]; simpl; [done|].
  destruct (isspace a) eqn:Ha; [done|].
  by intros [= <- _].
Qed.

Lemma lstrip_fixed c (r : pystr) : isspace c = false -> lstrip (c :: r) = c :: r.
Proof. intros Hc. simpl. by rewrite Hc. Qed.

Lemma rstrip_blank (s : pystr) : blank s -> rstrip s = [].
Proof.
  induction 1 as [|c r Hc _ IH]; simpl; [done|]. by rewrite IH, Hc.
Qed.

Lemma rstrip_cons c (r : pystr) : isspace c = false -> rstrip (c :: r) = c :: rstrip r.
Proof. intros Hc. simpl. destruct (rstrip r); by rewrite ?Hc. Qed.

Lemma rstrip_idemp (s : pystr) : rstrip (rstrip s) = rstrip s.
Proof.
  induction s as [|c r IH]; [done|].
  simpl. destruct (rstrip r) as [|x r'] eqn:Hr.
  - destruct (isspace c) eqn:Hc; simpl; [done|]. by rewrite Hc.
  - change (rstrip (c :: x :: r')) with
      (match rstrip (x :: r') with [] => if isspace c then [] else [c] | y => c :: y end).
    by rewrite IH.
Qed.

(** Trimming a trimmed string changes nothing. *)
Lemma strip_idemp (s : pystr) : strip (strip s) = strip s.
Proof.
  unfold strip. destruct (lstrip s) as [|c r] eqn:Hs; [done|].
  pose proof (lstrip_head _ _ _ Hs) as Hc.
  rewrite (rstrip_cons _ _ Hc), (lstrip_fixed _ _ Hc).
  by rewrite <- (rstrip_cons _ _ Hc), rstrip_idemp.
Qed.

(** A string trims to the empty string exactly when it is blank. *)
Lemma strip_nil_iff (s : pystr) : strip s = [] <-> blank s.
Proof.
  unfold strip. split.
  - destruct (lstrip s) as [|c r] eqn:Hs; [intros _; by apply lstrip_nil_blank|].
    rewrite (rstrip_cons _ _ (lstrip_head _ _ _ Hs)). done.
  - intros Hb. by rewrite (lstrip_blank _ Hb).
Qed.

(** The trimmed string is what is left between a blank prefix and a blank
    suffix, and it neither starts nor ends with whitespace. *)
Lemma lstrip_split (s : pystr) : exists ws, blank ws /\ s = ws ++ lstrip s.
Proof.
  induction s as [|c r [ws [Hws Hr]]]; [exists []; split; [constructor|done]|].
  simpl. destruct (isspace c) eqn:Hc.
  - exists (c :: ws). split; [by apply List.Forall_cons|]. simpl. by rewrite <- Hr.
  - exists []. split; [constructor|done].
Qed.

Lemma rstrip_split (s : pystr) : exists ws, blank ws /\ s = rstrip s ++ ws.
Proof.
  induction s as [|c r [ws [Hws Hr]]]; [exists []; split; [constructor|done]|].
  simpl. destruct (rstrip r) as [|x r'] eqn:Er.
  - destruct (isspace c) eqn:Hc.
    + exists (c :: ws). split; [by apply List.Forall_cons|]. simpl in *. congruence.
    + exists ws. split; [done|]. simpl in *. congruence.
  - exists ws. split; [done|]. simpl in *. congruence.
Qed.

Lemma rstrip_last (s : pystr) c r : rstrip s = r ++ [c] -> isspace c = false.
Proof.
  revert r. induction s as [|a s IH]; intros r; simpl; [by destruct r|].
  destruct (rstrip s) as [|x s'] eqn:Es.
  - destruct (isspace a) eqn:Ha; [by destruct r|].
    destruct r as [|? [|? ?]]; simpl; intros [= ]; by subst.
  - destruct r as [|y r]; simpl; [intros [= ]|].
    intros [= -> Hr]. by apply (IH r).
Qed.

Lemma strip_split (s : pystr) :
  exists before after, blank before /\ blank after
    /\ s = before ++ strip s ++ after /\ trimmed (strip s).
Proof.
  destruct (lstrip_split s) as [b [Hb Hs]].
  destruct (rstrip_split (lstrip s)) as [a [Ha Hl]].
  exists b, a. repeat split; [done|done| |..].
  - unfold strip. by rewrite <- Hl.
  - intros c r Hc. unfold strip in Hc.
    destruct (lstrip s) as [|x l] eqn:El; [done|].
    pose proof (lstrip_head _ _ _ El) as Hx.
    rewrite (rstrip_cons _ _ Hx) in Hc. by injection Hc as -> _.
  - intros c r Hc. by apply (rstrip_last _ _ _ Hc).
Qed.

(** ** Facts about the framework and the stream *)

Lemma same_name_refl (a : string) : same_name a a = true.
Proof. unfold same_name. apply String.eqb_refl. Qed.

Lemma getlist_removed (name : string) (hs : headers) :
  headers_getlist name (List.filter (fun f => negb (same_name (fst f) name)) hs) = [].
Proof.
  unfold headers_getlist. induction hs as [|[n v] r IH]; [done|].
  simpl. destruct (same_name n name) eqn:E; simpl; [done|]. by rewrite E.
Qed.

(** After [headers[name] = value] the field is sent once, with that value. *)
Lemma getlist_set (name value : string) (hs : headers) :
  headers_getlist name (headers_set name value hs) = [value].
Proof.
  induction hs as [|[n v] r IH]; simpl.
  - unfold headers_getlist. simpl. by rewrite same_name_refl.
  - destruct (same_name n name) eqn:E.
    + unfold headers_getlist. simpl. rewrite same_name_refl. simpl.
      f_equal. apply getlist_removed.
    + unfold headers_getlist in *. simpl. by rewrite E.
Qed.

(** Writing into a fresh stream and rewinding leaves the written bytes
    to be read from the start. *)
Lemma write_fresh_rewound (png : list Byte.byte) :
  BytesIO.seek (BytesIO.write BytesIO.empty png) 0 = BytesIO.mk png 0.
Proof.
  unfold BytesIO.seek, BytesIO.write, BytesIO.empty. simpl.
  by rewrite drop_nil, app_nil_r.
Qed.

(** A field that was not sent reads as the default. *)
Lemma form_get_absent (fields : list (pystr * pystr)) (key default : pystr) :
  (forall v, (key, v) ∉ fields) -> form_get fields key default = default.
Proof.
  induction fields as [|[k v] r IH]; intros Hno; simpl; [done|].
  destruct (decide (k = key)) as [->|Hk].
  - exfalso. apply (Hno v). by left.
  - apply IH. intros w Hw. apply (Hno w). by right.
Qed.

(** ** The adapter and the handler, case by case *)

(** The adapter logs the call, then returns the rewound stream of what the
    library wrote, or raises what the library raised. *)
Lemma generate_qr_code_run (data : pystr) (log : call_log) :
  generate_qr_code data log =
    match qrcode (adapter_job data) with
    | inr png => (inr (BytesIO.mk png 0), log ++ [data])
    | inl name => (inl (LibraryError name), log ++ [data])
    end.
Proof.
  unfold generate_qr_code, mbind, Py_bind, entered, library_call.
  destruct (qrcode (adapter_job data)) as [name|png]; simpl; [done|].
  unfold mret, Py_ret. by rewrite write_fresh_rewound.
Qed.

(** The adapter's job for a trimmed string carries that string. *)
Lemma adapter_job_strip (s : pystr) : adapter_job (strip s) = adapter_job s.
Proof. unfold adapter_job. by rewrite strip_idemp. Qed.

(** The four ways a POST ends. *)
Lemma serve_home_post (request : Request) (log : call_log) :
  method request = "POST" ->
  serve_home request log =
    match trimmed_data request with
    | [] => (empty_input_response, log)
    | _ :: _ =>
        if (1000 <? length (trimmed_data request))%nat
        then (too_long_response, log)
        else match qrcode (adapter_job (trimmed_data request)) with
             | inr png => (qr_response png, log ++ [trimmed_data request])
             | inl _ => (server_error_response, log ++ [trimmed_data request])
             end
    end.
Proof.
  intros Hm. unfold serve_home, home. rewrite Hm. simpl.
  fold (trimmed_data request).
  destruct (trimmed_data request) as [|c r] eqn:Ed; [done|].
  destruct (1000 <? length (c :: r))%nat; [done|].
  unfold mbind, Py_bind. rewrite generate_qr_code_run.
  by destruct (qrcode (adapter_job (c :: r))).
Qed.

(** The error page is the answer exactly to an oversized trimmed value,
    and then nothing is logged. *)
Lemma too_long_iff (request : Request) (log : call_log) :
  method request = "POST" ->
  fst (serve_home request log) = too_long_response
    <-> (1000 < length (trimmed_data request))%nat.
Proof.
  intros Hm. rewrite (serve_home_post _ _ Hm).
  destruct (trimmed_data request) as [|c r]; [split; [done|simpl; lia]|].
  destruct (1000 <? length (c :: r))%nat eqn:El.
  - split; [intros _; by apply Nat.ltb_lt|done].
  - apply Nat.ltb_ge in El.
    split; [by destruct (qrcode (adapter_job (c :: r)))|lia].
Qed.

Lemma too_long_run (request : Request) (log : call_log) :
  method request = "POST" ->
  (1000 < length (trimmed_data request))%nat ->
  serve_home request log = (too_long_response, log).
Proof.
  intros Hm Hlen. rewrite (serve_home_post _ _ Hm).
  destruct (trimmed_data request) as [|c r]; [simpl in Hlen; lia|].
  by apply Nat.ltb_lt in Hlen as ->.
Qed.

(** ** The claims *)

(** C1 (amended). For a POST whose [data] field, trimmed, is non-empty and
    at most 1000 characters long, the handler calls the adapter once, with
    the trimmed value, and the library receives exactly that value. If the
    adapter returns a buffer, the response is HTTP 200, of type
    [image/png], delivering the whole buffer as the attachment
    [qrcode.png]; if the adapter raises, the response is a server error. *)
Theorem home_post_valid_delivers (request : Request) (log : call_log) :
  method request = "POST" ->
  trimmed_data request <> [] ->
  (length (trimmed_data request) <= 1000)%nat ->
  qr_data (adapter_job (trimmed_data request)) = trimmed_data request
  /\ snd (serve_home request log) = log ++ [trimmed_data request]
  /\ (forall buffer log',
        generate_qr_code (trimmed_data request) log = (inr buffer, log') ->
        serve_home request log =
          ({| status := 200; mimetype := "image/png";
              hdrs := headers_set "Cache-Control" "no-store"
                        (("Content-Disposition", "attachment; filename=qrcode.png")
                           :: file_headers);
              content := Stream (BytesIO.getvalue buffer) |}, log'))
  /\ (forall e log',
        generate_qr_code (trimmed_data request) log = (inl e, log') ->
        serve_home request log = (server_error_response, log')).
Proof.
  intros Hm Hne Hlen.
  rewrite (serve_home_post _ _ Hm).
  destruct (trimmed_data request) as [|c r] eqn:Ed; [done|].
  assert ((1000 <? length (c :: r))%nat = false) as -> by (apply Nat.ltb_ge; lia).
  split; [|split; [|split]].
  - simpl. rewrite <- Ed. unfold trimmed_data. apply strip_idemp.
  - by destruct (qrcode (adapter_job (c :: r))).
  - intros buffer log'. rewrite generate_qr_code_run.
    destruct (qrcode (adapter_job (c :: r))); [done|]. by intros [= <- <-].
  - intros e log'. rewrite generate_qr_code_run.
    destruct (qrcode (adapter_job (c :: r))); [|done]. by intros [= <- <-].
Qed.

(** C2. For a POST in which the [data] field is absent, or present but
    empty or all whitespace, the response is HTTP 400 with a JSON object
    that has an [error] key, and the adapter is not called (the call log is
    unchanged). *)
Theorem home_post_blank_rejected (request : Request) (log : call_log) :
  method request = "POST" ->
  (forall v, (lit "data", v) ∉ form request)
    \/ blank (form_get (form request) (lit "data") (lit "")) ->
  exists object,
    serve_home request log =
      ({| status := 400; mimetype := "application/json"; hdrs := [];
          content := Json object |}, log)
    /\ is_Some (object !! "error").
Proof.
  intros Hm Hdata.
  assert (trimmed_data request = []) as Hd.
  { unfold trimmed_data. destruct Hdata as [Habsent|Hblank].
    - by rewrite (form_get_absent _ _ _ Habsent).
    - by apply strip_nil_iff. }
  rewrite (serve_home_post _ _ Hm), Hd.
  eexists. split; [reflexivity|]. by rewrite lookup_singleton_eq.
Qed.

(** C3 (amended). On a POST the response is the HTTP 400 error page (not
    the JSON payload) exactly when the trimmed [data] is longer than 1000
    characters, and then the adapter is not called; so a trimmed length of
    1001 gives that page. A trimmed length of exactly 1000 passes the
    check: the adapter is called with the trimmed value, and the response
    is the HTTP 200 attachment whenever the library returns an image. *)
Theorem home_post_length_limit (request : Request) (log : call_log) :
  method request = "POST" ->
  (fst (serve_home request log) = too_long_response
     <-> (1000 < length (trimmed_data request))%nat)
  /\ ((1000 < length (trimmed_data request))%nat ->
        serve_home request log = (too_long_response, log))
  /\ (length (trimmed_data request) = 1001%nat ->
        serve_home request log = (too_long_response, log))
  /\ (length (trimmed_data request) = 1000%nat ->
        snd (serve_home request log) = log ++ [trimmed_data request]
        /\ forall png, qrcode (adapter_job (trimmed_data request)) = inr png ->
             fst (serve_home request log) = qr_response png
             /\ status (qr_response png) = 200).
Proof.
  intros Hm. split; [by apply too_long_iff|]. split; [by apply too_long_run|].
  split; [intros Hlen; apply too_long_run; [done|lia]|].
  intros Hlen. rewrite (serve_home_post _ _ Hm).
  destruct (trimmed_data request) as [|c r]; [done|].
  assert ((1000 <? length (c :: r))%nat = false) as -> by (apply Nat.ltb_ge; lia).
  split; [by destruct (qrcode (adapter_job (c :: r)))|].
  by intros png ->.
Qed.

(** C4. Every successful response to a POST (any response of status 200,
    which is the attachment) carries [Cache-Control] once, with the value
    [no-store], whatever fields the framework had put there. *)
Theorem home_post_success_no_store (request : Request) (log : call_log) :
  method request = "POST" ->
  status (fst (serve_home request log)) = 200 ->
  headers_getlist "Cache-Control" (hdrs (fst (serve_home request log))) = ["no-store"].
Proof.
  intros Hm. rewrite (serve_home_post _ _ Hm).
  destruct (trimmed_data request) as [|c r]; [done|].
  destruct (1000 <? length (c :: r))%nat; [done|].
  destruct (qrcode (adapter_job (c :: r))); [done|].
  intros _. apply getlist_set.
Qed.

(** C5 (amended). For every input string on which the library does not
    raise, the adapter returns an in-memory buffer that holds exactly the
    bytes the library wrote as PNG, with the position at the start, so that
    a reader receives all of them (and they start with the PNG signature
    if what the library wrote does). The call is logged. *)
Theorem generate_qr_code_buffer (data : pystr) (log : call_log) (png : list Byte.byte) :
  qrcode (adapter_job data) = inr png ->
  exists buffer,
    generate_qr_code data log = (inr buffer, log ++ [data])
    /\ BytesIO.getvalue buffer = png
    /\ BytesIO.tell buffer = 0%nat
    /\ BytesIO.remaining buffer = png
    /\ (png_signature `prefix_of` png ->
        png_signature `prefix_of` BytesIO.remaining buffer).
Proof.
  intros Hpng. exists (BytesIO.mk png 0).
  rewrite generate_qr_code_run, Hpng. by repeat split.
Qed.

(** On ASCII text [lower] is the ASCII lower case of each character. *)
Lemma do_lower_ascii (before s : pystr) :
  Forall (fun c => c < 0x80) s -> do_lower lower_ucs4 before s = map ascii_lower s.
Proof.
  intros Hs. revert before. induction Hs as [|c r Hc _ IH]; intros before; [done|].
  simpl. apply N.ltb_lt in Hc as ->. by rewrite IH.
Qed.

Lemma lower_ascii (s : pystr) :
  Forall (fun c => c < 0x80) s -> lower lower_ucs4 s = map ascii_lower s.
Proof. apply do_lower_ascii. Qed.

(** C6. [is_truthy(v)] is true if and only if the lower-cased [v] is one
    of [true], [1], [t], [yes], [y]; for ASCII text the lower-cased form
    is the ASCII lower case of each character, so that case is ignored and
    nothing else is. *)
Theorem is_truthy_iff (value : pystr) :
  (is_truthy value = true <-> lower lower_ucs4 value ∈ truthy_list)
  /\ (Forall (fun c => c < 0x80) value ->
        (is_truthy value = true <-> map ascii_lower value ∈ truthy_list)).
Proof using lower_ucs4.
  clear int_of_str qrcode file_headers.
  assert (is_truthy value = true <-> lower lower_ucs4 value ∈ truthy_list) as Hiff.
  { unfold is_truthy, truthy_forms, truthy_list.
    rewrite bool_decide_eq_true, !elem_of_union, !elem_of_singleton.
    rewrite !elem_of_cons, elem_of_nil. tauto. }
  split; [done|]. intros Hascii. by rewrite <- (lower_ascii _ Hascii).
Qed.

(** C7. With [IS_DEBUG], [FLASK_RUN_HOST] and [FLASK_RUN_PORT] unset, the
    start-up settings are host "0.0.0.0", port 5000 and debug off; the
    fallback string "False" is not truthy. *)
Theorem startup_defaults (env : environ) :
  env !! "IS_DEBUG" = None ->
  env !! "FLASK_RUN_HOST" = None ->
  env !! "FLASK_RUN_PORT" = None ->
  startup env = Some {| debug_mode := false; host := lit "0.0.0.0"; port := 5000 |}
  /\ is_truthy (lit "False") = false.
Proof.
  intros Hd Hh Hp.
  assert (is_truthy (lit "False") = false) as Hf.
  { unfold is_truthy. rewrite lower_ascii by (repeat constructor).
    by vm_compute. }
  split; [|done].
  unfold startup, getenv_int. rewrite Hp. simpl.
  unfold getenv at 2. rewrite Hh.
  unfold getenv in *. rewrite Hd. by rewrite Hf.
Qed.

(** C9. The adapter trims its argument before encoding: the library is
    given [strip s], the same job as for [strip s] itself, so [s] and
    [strip s] come out as the same buffer (or the same exception); after
    the handler's own trim the second trim changes nothing. *)
Theorem generate_qr_code_trims (s : pystr) (log : call_log) :
  qr_data (adapter_job s) = strip s
  /\ adapter_job (strip s) = adapter_job s
  /\ fst (generate_qr_code (strip s) log) = fst (generate_qr_code s log)
  /\ qr_data (adapter_job (strip s)) = strip s.
Proof.
  split; [done|]. split; [apply adapter_job_strip|]. split.
  - rewrite !generate_qr_code_run, adapter_job_strip.
    by destruct (qrcode (adapter_job s)).
  - by rewrite adapter_job_strip.
Qed.

(** C10. The emptiness check comes first and both checks read the trimmed
    value: a POST whose [data] trims to the empty string gets the HTTP 400
    JSON answer however long the raw value is; otherwise the error page is
    sent exactly when the trimmed value is longer than 1000 characters; and
    two submissions with the same trimmed value get the same response. *)
Theorem home_post_checks_trimmed (request : Request) (log : call_log) :
  method request = "POST" ->
  (trimmed_data request = [] -> serve_home request log = (empty_input_response, log))
  /\ (trimmed_data request <> [] ->
        (fst (serve_home request log) = too_long_response
           <-> (1000 < length (trimmed_data request))%nat))
  /\ (forall request', method request' = "POST" ->
        trimmed_data request' = trimmed_data request ->
        serve_home request' log = serve_home request log).
Proof.
  intros Hm. split; [|split].
  - intros Hd. by rewrite (serve_home_post _ _ Hm), Hd.
  - intros _. by apply too_long_iff.
  - intros request' Hm' Hd. by rewrite (serve_home_post _ _ Hm), (serve_home_post _ _ Hm'), Hd.
Qed.

(** ** More facts about [strip] *)

Lemma blank_app (a b : pystr) : blank a -> blank b -> blank (a ++ b).
Proof. unfold blank. intros Ha Hb. by apply Forall_app. Qed.

Lemma lstrip_app_blank (ws s : pystr) : blank ws -> lstrip (ws ++ s) = lstrip s.
Proof.
  induction 1 as [|c r Hc _ IH]; simpl; [done|]. by rewrite Hc.
Qed.

Lemma rstrip_app_blank (s ws : pystr) : blank ws -> rstrip (s ++ ws) = rstrip s.
Proof.
  intros Hws. induction s as [|c r IH]; simpl; [by apply rstrip_blank|].
  by rewrite IH.
Qed.

Lemma lstrip_app_kept (s t : pystr) : lstrip s <> [] -> lstrip (s ++ t) = lstrip s ++ t.
Proof.
  induction s as [|c r IH]; simpl; [done|].
  destruct (isspace c); [apply IH|done].
Qed.

(** Whitespace around a string does not change what it trims to. *)
Lemma strip_pad (a s b : pystr) : blank a -> blank b -> strip (a ++ s ++ b) = strip s.
Proof.
  intros Ha Hb. unfold strip. rewrite (lstrip_app_blank _ _ Ha).
  destruct (lstrip s) as [|c r] eqn:Es.
  - by rewrite (lstrip_blank (s ++ b)) by (apply blank_app; [by apply lstrip_nil_blank|done]).
  - rewrite lstrip_app_kept by (by rewrite Es). rewrite Es.
    by apply rstrip_app_blank.
Qed.

Lemma length_lstrip (s : pystr) : (length (lstrip s) <= length s)%nat.
Proof.
  induction s as [|c r IH]; simpl; [done|]. destruct (isspace c); simpl; lia.
Qed.

Lemma length_rstrip (s : pystr) : (length (rstrip s) <= length s)%nat.
Proof.
  induction s as [|c r IH]; simpl; [done|].
  destruct (rstrip r); [destruct (isspace c)|]; simpl in *; lia.
Qed.

(** Trimming never lengthens. *)
Lemma length_strip (s : pystr) : (length (strip s) <= length s)%nat.
Proof.
  unfold strip. pose proof (length_rstrip (lstrip s)). pose proof (length_lstrip s). lia.
Qed.

(** ** More facts about the framework *)

Lemma same_name_eq (a b : string) : same_name a b = true <-> lower_name a = lower_name b.
Proof. unfold same_name. apply String.eqb_eq. Qed.

Lemma same_name_sym (a b : string) : same_name a b = same_name b a.
Proof. unfold same_name. apply String.eqb_sym. Qed.

(** Two names that match a third match each other. *)
Lemma same_name_other (n name other : string) :
  same_name n name = true -> same_name other name = false -> same_name n other = false.
Proof.
  intros Hn Ho. destruct (same_name n other) eqn:E; [|done].
  apply same_name_eq in Hn, E.
  assert (same_name other name = true) as Hc by (apply same_name_eq; congruence).
  congruence.
Qed.

Lemma getlist_removed_other (name other : string) (hs : headers) :
  same_name other name = false ->
  headers_getlist other (List.filter (fun f => negb (same_name (fst f) name)) hs)
  = headers_getlist other hs.
Proof.
  intros Ho. unfold headers_getlist.
  induction hs as [|[n v] r IH]; [done|]. simpl.
  destruct (same_name n name) eqn:En; simpl.
  - by rewrite (same_name_other _ _ _ En Ho).
  - destruct (same_name n other); simpl; by rewrite IH.
Qed.

(** [headers[name] = value] leaves the fields of every other name alone. *)
Lemma getlist_set_other (name value other : string) (hs : headers) :
  same_name other name = false ->
  headers_getlist other (headers_set name value hs) = headers_getlist other hs.
Proof.
  intros Ho. induction hs as [|[n v] r IH]; simpl.
  - unfold headers_getlist. simpl. by rewrite same_name_sym, Ho.
  - destruct (same_name n name) eqn:En.
    + pose proof (getlist_removed_other name other r Ho) as Hr.
      unfold headers_getlist in *. simpl.
      rewrite (same_name_sym name other), Ho, (same_name_other _ _ _ En Ho). by simpl.
    + unfold headers_getlist in *. simpl.
      destruct (same_name n other); simpl; by rewrite IH.
Qed.

(** The first field sent under [key] is the one read, whatever comes
    before it under other names or after it. *)
Lemma form_get_first (before after : list (pystr * pystr)) (key v default : pystr) :
  (forall w, (key, w) ∉ before) ->
  form_get (before ++ (key, v) :: after) key default = v.
Proof.
  induction before as [|[k w] r IH]; intros Hno; simpl.
  - by rewrite decide_True.
  - destruct (decide (k = key)) as [->|Hk].
    + exfalso. apply (Hno w). by left.
    + apply IH. intros w' Hw'. apply (Hno w'). by right.
Qed.

(** ** More on the handler *)

(** Any method but POST gets the form, and nothing else happens. *)
Lemma serve_home_not_post (request : Request) (log : call_log) :
  method request <> "POST" -> serve_home request log = (form_page, log).
Proof.
  intros Hm. unfold serve_home, home.
  by apply String.eqb_neq in Hm as ->.
Qed.

(** The handler reads the form only through its first [data] field. *)
Lemma serve_home_reads_data (request request' : Request) (log : call_log) :
  method request = method request' -> raw_data request = raw_data request' ->
  serve_home request log = serve_home request' log.
Proof.
  unfold serve_home, home, raw_data. by intros -> ->.
Qed.

(** X1. On a POST the JSON error is the answer exactly when the [data]
    field, as read (the empty string when absent), is blank; no other
    answer is of type [application/json]. *)
Theorem json_error_iff_blank (request : Request) (log : call_log) :
  method request = "POST" ->
  (fst (serve_home request log) = empty_input_response <-> blank (raw_data request))
  /\ (mimetype (fst (serve_home request log)) = "application/json"
        <-> blank (raw_data request)).
Proof.
  intros Hm. rewrite (serve_home_post _ _ Hm).
  rewrite <- (strip_nil_iff (raw_data request)).
  change (strip (raw_data request)) with (trimmed_data request).
  destruct (trimmed_data request) as [|c r]; [by split|].
  destruct (1000 <? length (c :: r))%nat; [by split|].
  destruct (qrcode (adapter_job (c :: r))); by split.
Qed.

(** X2. Whatever the request, the encoder is called at most once, and only
    on a POST; what it is called with is the submitted text without its
    surrounding whitespace (inner whitespace is kept), it is not empty,
    has at most 1000 characters, neither starts nor ends with whitespace,
    and is the payload the library receives. *)
Theorem encoder_argument_invariant (request : Request) (log : call_log) :
  snd (serve_home request log) = log
  \/ (method request = "POST"
      /\ snd (serve_home request log) = log ++ [trimmed_data request]
      /\ trimmed_data request <> []
      /\ (length (trimmed_data request) <= 1000)%nat
      /\ trimmed (trimmed_data request)
      /\ qr_data (adapter_job (trimmed_data request)) = trimmed_data request
      /\ exists before after, blank before /\ blank after
           /\ raw_data request = before ++ trimmed_data request ++ after).
Proof.
  destruct (decide (method request = "POST")) as [Hm|Hm];
    [|left; by rewrite (serve_home_not_post _ _ Hm)].
  rewrite (serve_home_post _ _ Hm).
  destruct (trimmed_data request) as [|c r] eqn:Ed; [by left|].
  destruct (1000 <? length (c :: r))%nat eqn:El; [by left|].
  right. apply Nat.ltb_ge in El.
  destruct (strip_split (raw_data request)) as (b & a & Hb & Ha & Hraw & Ht).
  change (strip (raw_data request)) with (trimmed_data request) in *.
  rewrite Ed in *.
  repeat split; try done.
  - by destruct (qrcode (adapter_job (c :: r))).
  - by apply Ht.
  - by apply Ht.
  - simpl. rewrite <- Ed. apply strip_idemp.
  - by exists b, a.
Qed.

(** X3. The status of the answer to a POST tells the case: 400 exactly
    when the trimmed text is empty or longer than 1000 characters, 200
    exactly when it is neither and the library returns an image, 500
    exactly when it is neither and the library raises. There is no other
    status. *)
Theorem post_status_cases (request : Request) (log : call_log) :
  method request = "POST" ->
  let data := trimmed_data request in
  let code := status (fst (serve_home request log)) in
  (code = 400 <-> data = [] \/ (1000 < length data)%nat)
  /\ (code = 200 <-> data <> [] /\ (length data <= 1000)%nat
                      /\ exists png, qrcode (adapter_job data) = inr png)
  /\ (code = 500 <-> data <> [] /\ (length data <= 1000)%nat
                      /\ exists name, qrcode (adapter_job data) = inl name)
  /\ (code = 200 \/ code = 400 \/ code = 500).
Proof.
  intros Hm data code. subst data code. rewrite (serve_home_post _ _ Hm).
  destruct (trimmed_data request) as [|c r].
  { simpl. repeat split; try tauto; try done; try (by intros (? & _)); auto. }
  destruct (1000 <? length (c :: r))%nat eqn:El.
  { apply Nat.ltb_lt in El. simpl fst. simpl status.
    repeat split; try done; try (intros (_ & ? & _); lia); auto. }
  apply Nat.ltb_ge in El.
  destruct (qrcode (adapter_job (c :: r))) as [name|png]; simpl fst; simpl status.
  - repeat split; try done; eauto; try (intros [?|?]; [done|lia]).
    by intros (_ & _ & ? & ?).
  - repeat split; try done; eauto; try (intros [?|?]; [done|lia]).
    by intros (_ & _ & ? & ?).
Qed.


(** X5. A submission whose [data] field, as sent, has at most 1000
    characters is never answered with the too-long page: trimming only
    shortens. *)
Theorem short_raw_never_too_long (request : Request) (log : call_log) :
  method request = "POST" ->
  (length (raw_data request) <= 1000)%nat ->
  fst (serve_home request log) <> too_long_response.
Proof.
  intros Hm Hlen Hpage. apply (too_long_iff _ _ Hm) in Hpage.
  pose proof (length_strip (raw_data request)) as Hle.
  unfold trimmed_data, raw_data in *. lia.
Qed.

(** X6. Of the form fields only the first one named [data] counts: fields
    under other names before it, and any field after it (a second [data]
    included), change neither the answer nor what the encoder is called
    with. *)
Theorem only_first_data_field (m : string) (before after : list (pystr * pystr))
    (v : pystr) (log : call_log) :
  (forall w, (lit "data", w) ∉ before) ->
  serve_home {| method := m; form := before ++ (lit "data", v) :: after |} log
  = serve_home {| method := m; form := [(lit "data", v)] |} log.
Proof.
  intros Hno. apply serve_home_reads_data; [done|].
  unfold raw_data. simpl form. by rewrite (form_get_first _ _ _ _ _ Hno).
Qed.

(** X7. Whitespace around the submitted text changes nothing: the padded
    and the bare text get the same answer and the same call of the
    encoder, even when the padded text is longer than 1000 characters. *)
Theorem padding_ignored (a v b : pystr) (log : call_log) :
  blank a -> blank b ->
  serve_home (post (a ++ v ++ b)) log = serve_home (post v) log.
Proof.
  intros Ha Hb.
  rewrite !serve_home_post by done.
  assert (trimmed_data (post (a ++ v ++ b)) = trimmed_data (post v)) as ->; [|done].
  unfold trimmed_data. simpl. by apply strip_pad.
Qed.

(** X8. Setting [Cache-Control] on the file response leaves every other
    header field as [send_file] built it; in particular the response
    still names the attachment [qrcode.png], first among its
    [Content-Disposition] values. *)
Theorem other_headers_kept (request : Request) (log : call_log) (name : string) :
  method request = "POST" ->
  status (fst (serve_home request log)) = 200 ->
  same_name name "Cache-Control" = false ->
  headers_getlist name (hdrs (fst (serve_home request log)))
    = headers_getlist name sent_file_headers
  /\ headers_getlist "Content-Disposition" (hdrs (fst (serve_home request log)))
    = "attachment; filename=qrcode.png"
        :: headers_getlist "Content-Disposition" file_headers.
Proof.
  intros Hm. rewrite (serve_home_post _ _ Hm).
  destruct (trimmed_data request) as [|c r]; [done|].
  destruct (1000 <? length (c :: r))%nat; [done|].
  destruct (qrcode (adapter_job (c :: r))); [done|].
  intros _ Hname. unfold qr_response. cbn [fst hdrs]. fold sent_file_headers.
  split; [by apply getlist_set_other|].
  by rewrite getlist_set_other.
Qed.

(** X9. The adapter's outcome does not depend on whitespace around its
    argument: with or without it the library gets the same job, and the
    same buffer or exception comes back. A blank argument is not refused:
    it reaches the library as the empty payload. *)
Theorem adapter_padding_ignored (a s b : pystr) (log : call_log) :
  blank a -> blank b ->
  adapter_job (a ++ s ++ b) = adapter_job s
  /\ fst (generate_qr_code (a ++ s ++ b) log) = fst (generate_qr_code s log)
  /\ (blank s -> qr_data (adapter_job (a ++ s ++ b)) = []).
Proof.
  intros Ha Hb.
  assert (adapter_job (a ++ s ++ b) = adapter_job s) as Hjob.
  { unfold adapter_job. by rewrite (strip_pad _ _ _ Ha Hb). }
  split; [done|]. split.
  - rewrite !generate_qr_code_run, Hjob. by destruct (qrcode (adapter_job s)).
  - intros Hs. rewrite Hjob. simpl. by apply strip_nil_iff.
Qed.

(** ** More on [is_truthy] and the start-up *)

Lemma truthy_forms_list (x : pystr) : x ∈ truthy_forms <-> x ∈ truthy_list.
Proof using.
  clear qrcode lower_ucs4 int_of_str file_headers.
  unfold truthy_forms, truthy_list.
  rewrite !elem_of_union, !elem_of_singleton, !elem_of_cons, elem_of_nil. tauto.
Qed.

(** No truthy form starts or ends with whitespace. *)
Lemma truthy_list_trimmed (x : pystr) : x ∈ truthy_list -> trimmed x.
Proof.
  unfold truthy_list. rewrite !elem_of_cons, elem_of_nil.
  intros Hx. split; intros c r Hc.
  - destruct Hx as [->|[->|[->|[->|[->|[]]]]]]; vm_compute in Hc;
      by injection Hc as <- _.
  - apply (f_equal last) in Hc. rewrite last_snoc in Hc.
    destruct Hx as [->|[->|[->|[->|[->|[]]]]]]; vm_compute in Hc;
      by injection Hc as <-.
Qed.

(** A whitespace character is no capital letter. *)
Lemma ascii_lower_space (c : N) : isspace c = true -> ascii_lower c = c.
Proof.
  unfold isspace, ascii_lower. intros Hc.
  destruct ((0x41 <=? c) && (c <=? 0x5A)) eqn:E; [|done].
  apply andb_prop in E as [Hlo Hhi].
  apply N.leb_le in Hlo, Hhi.
  repeat (apply orb_prop in Hc as [Hc|Hc]);
    repeat match goal with
           | H : (_ && _) = true |- _ => apply andb_prop in H as [? ?]
           | H : (_ <=? _) = true |- _ => apply N.leb_le in H
           | H : (_ =? _) = true |- _ => apply N.eqb_eq in H
           end; lia.
Qed.

(** The lower-cased form of a string ending in an ASCII character ends in
    that character's lower case. *)
Lemma do_lower_snoc (before s : pystr) (c : N) :
  c < 0x80 -> exists p, do_lower lower_ucs4 before (s ++ [c]) = p ++ [ascii_lower c].
Proof.
  intros Hc. revert before. induction s as [|a r IH]; intros before; simpl.
  - exists []. by apply N.ltb_lt in Hc as ->.
  - destruct (IH (before ++ [a])) as [p ->].
    eexists. by rewrite app_assoc.
Qed.

(** X10. [is_truthy] does not trim: a value that starts or ends with an
    ASCII whitespace character (a space, a tab, a line end) is never
    truthy, whatever is next to it. *)
Theorem is_truthy_untrimmed (c : N) (v : pystr) :
  c < 0x80 -> isspace c = true ->
  is_truthy (c :: v) = false /\ is_truthy (v ++ [c]) = false.
Proof using lower_ucs4.
  clear int_of_str qrcode file_headers.
  intros Hc Hs. unfold is_truthy. rewrite !bool_decide_eq_false.
  split; intros Hin; apply truthy_forms_list, truthy_list_trimmed in Hin as [Hfirst Hlast].
  - unfold lower in Hfirst. simpl in Hfirst.
    pose proof Hc as Hb. apply N.ltb_lt in Hb. rewrite Hb in Hfirst.
    specialize (Hfirst _ _ eq_refl). rewrite (ascii_lower_space _ Hs) in Hfirst.
    congruence.
  - unfold lower in Hlast. destruct (do_lower_snoc [] v c Hc) as [p Hp].
    rewrite Hp in Hlast. specialize (Hlast _ _ eq_refl).
    rewrite (ascii_lower_space _ Hs) in Hlast. congruence.
Qed.

(** X11. The start-up fails exactly when [FLASK_RUN_PORT] is set to a string
    that [int] refuses; the two other variables cannot make it fail. *)
Theorem startup_fails_iff (env : environ) :
  startup env = None
  <-> exists s, env !! "FLASK_RUN_PORT" = Some s /\ int_of_str s = None.
Proof.
  unfold startup, getenv_int.
  destruct (env !! "FLASK_RUN_PORT") as [s|] eqn:Ep; simpl.
  - destruct (int_of_str s) eqn:Ei; simpl.
    + split; [done|]. intros (s' & [= <-] & Hs'). congruence.
    + split; [|done]. intros _. by exists s.
  - split; [done|]. by intros (s' & [= ] & _).
Qed.

(** X12. Variables other than the three that are read do not matter:
    setting or unsetting one leaves the settings as they were. *)
Theorem startup_ignores_others (env : environ) (key : string) (v : pystr) :
  key <> "IS_DEBUG" -> key <> "FLASK_RUN_HOST" -> key <> "FLASK_RUN_PORT" ->
  startup (<[key := v]> env) = startup env
  /\ startup (delete key env) = startup env.
Proof.
  intros Hd Hh Hp. unfold startup, getenv, getenv_int.
  by rewrite !lookup_insert_ne, !lookup_delete_ne.
Qed.

(** X13. When the start-up succeeds, debug mode is on exactly when
    [IS_DEBUG] is set and its lower-cased value is a truthy form; a host
    that is set is taken as it is; a port that is set is what [int] makes
    of it. *)
Theorem startup_reads_environment (env : environ) (c : Config) :
  startup env = Some c ->
  (debug_mode c = true
     <-> exists d, env !! "IS_DEBUG" = Some d /\ lower lower_ucs4 d ∈ truthy_list)
  /\ (forall h, env !! "FLASK_RUN_HOST" = Some h -> host c = h)
  /\ (forall s, env !! "FLASK_RUN_PORT" = Some s -> int_of_str s = Some (port c)).
Proof.
  assert (is_truthy (lit "False") = false) as Hf.
  { unfold is_truthy. rewrite lower_ascii by (repeat constructor). by vm_compute. }
  unfold startup, getenv, getenv_int.
  destruct (env !! "FLASK_RUN_PORT") as [s|] eqn:Ep; simpl.
  - destruct (int_of_str s) as [p|] eqn:Ei; simpl; [|done].
    intros [= <-]. simpl. split; [|split].
    + destruct (env !! "IS_DEBUG") as [d|] eqn:Ed.
      * unfold is_truthy. rewrite bool_decide_eq_true, truthy_forms_list.
        split; [intros Hd; by exists d|]. by intros (d' & [= <-] & Hd').
      * rewrite Hf. split; [done|]. by intros (d' & [= ] & _).
    + by intros h ->.
    + by intros s' [= <-].
  - intros [= <-]. simpl. split; [|split].
    + destruct (env !! "IS_DEBUG") as [d|] eqn:Ed.
      * unfold is_truthy. rewrite bool_decide_eq_true, truthy_forms_list.
        split; [intros Hd; by exists d|]. by intros (d' & [= <-] & Hd').
      * rewrite Hf. split; [done|]. by intros (d' & [= ] & _).
    + by intros h ->.
    + by intros s' [= ].
Qed.

End App.

(** ** The definitions at work *)

Example strip_both_ends : strip (lit "  a b  ") = lit "a b".
Proof. reflexivity. Qed.

Example strip_line_ends :
  strip ([0x09; 0x0A] ++ lit "x" ++ [0x0D; 0x0A; 0xA0; 0x3000]) = lit "x".
Proof. reflexivity. Qed.

Example is_truthy_upper : is_truthy no_case (lit "TRUE") = true.
Proof. by vm_compute. Qed.

Example is_truthy_mixed : is_truthy no_case (lit "Yes") = true.
Proof. by vm_compute. Qed.

Example is_truthy_on : is_truthy no_case (lit "on") = false.
Proof. by vm_compute. Qed.

Example is_truthy_padded : is_truthy no_case (lit " y") = false.
Proof. by vm_compute. Qed.

(** 985 euro signs are 2955 bytes and are let through; 986 are not. At
    1000 ASCII letters a library that checks the capacity still answers. *)
Example capacity_boundary :
  overflows (replicate 985 0x20AC) = false /\ overflows (replicate 986 0x20AC) = true.
Proof. by vm_compute. Qed.

Example thousand_letters_served :
  serve_home (capacity_checked fixed_png_library) [] (post (replicate 1000 0x61)) []
  = (qr_response [] png_signature, [replicate 1000 0x61]).
Proof. by vm_compute. Qed.

Example static_pages :
  finalize_request (fst (about [])) =
    {| status := 200; mimetype := "text/html"; hdrs := []; content := Template "about.html" |}
  /\ finalize_request (fst (contact [])) =
    {| status := 200; mimetype := "text/html"; hdrs := []; content := Template "contact.html" |}.
Proof. by split. Qed.

(** A raw value of 1600 characters whose trimmed value has 1000 is served. *)
Example padded_thousand_served :
  let raw := replicate 300 0x20 ++ replicate 1000 0x61 ++ replicate 300 0x20 in
  length raw = 1600%nat
  /\ serve_home fixed_png_library [] (post raw) []
     = (qr_response [] png_signature, [replicate 1000 0x61]).
Proof. by vm_compute. Qed.

(** The first of several [data] fields is the one read. *)
Example first_field_read :
  trimmed_data {| method := "POST";
                  form := [(lit "other", lit "x"); (lit "data", lit " one ");
                           (lit "data", lit "two")] |} = lit "one".
Proof. reflexivity. Qed.

(** A submission without the [data] field is an empty one. *)
Example absent_field_rejected :
  serve_home fixed_png_library []
    {| method := "POST"; form := [(lit "text", lit "x")] |} []
  = (empty_input_response, []).
Proof. reflexivity. Qed.

(** A page view gets the form. *)
Example get_renders_form :
  serve_home fixed_png_library [] {| method := "GET"; form := [] |} []
  = ({| status := 200; mimetype := "text/html"; hdrs := [];
        content := Template "index.html" |}, []).
Proof. reflexivity. Qed.

(** [Cache-Control] replaces what the framework had set. *)
Example no_store_replaces :
  hdrs (fst (serve_home fixed_png_library
               [("Cache-Control", "no-cache"); ("cache-control", "public")]
               (post (lit "hi")) []))
  = [("Content-Disposition", "attachment; filename=qrcode.png");
     ("Cache-Control", "no-store")].
Proof. reflexivity. Qed.

(** ** The claims at concrete inputs *)

(** C1 at the submission ["  hello  "], with a library that answers. *)
Lemma home_post_valid_delivers_hello :
  method (post (lit "  hello  ")) = "POST"
  /\ trimmed_data (post (lit "  hello  ")) = lit "hello"
  /\ serve_home fixed_png_library [] (post (lit "  hello  ")) []
     = (qr_response [] png_signature, [lit "hello"]).
Proof.
  split; [reflexivity|]. split; [reflexivity|].
  destruct (home_post_valid_delivers fixed_png_library [] (post (lit "  hello  ")) [])
    as (_ & _ & Hok & _).
  - reflexivity.
  - vm_compute. discriminate.
  - vm_compute. lia.
  - apply (Hok (BytesIO.mk png_signature 0) [lit "hello"]). reflexivity.
Defined.

(** C1, as stated, fails: a thousand euro signs are a non-empty trimmed
    value of 1000 characters, but 3000 bytes fit no QR symbol; with a
    library that raises on overflow, however it renders otherwise, the
    response is not HTTP 200. *)
Lemma home_post_valid_overflow :
  trimmed_data (post euro_1000) <> []
  /\ (length (trimmed_data (post euro_1000)) <= 1000)%nat
  /\ ~ exists inner extra,
        status (fst (serve_home (capacity_checked inner) extra (post euro_1000) [])) = 200.
Proof.
  split; [by vm_compute|]. split; [vm_compute; lia|].
  intros (inner & extra & H). vm_compute in H. discriminate.
Qed.

(** C2 at a submission of three spaces. *)
Lemma home_post_blank_rejected_spaces :
  exists object,
    serve_home fixed_png_library [] (post (lit "   ")) []
      = ({| status := 400; mimetype := "application/json"; hdrs := [];
            content := Json object |}, [])
    /\ is_Some (object !! "error").
Proof.
  apply (home_post_blank_rejected fixed_png_library [] (post (lit "   ")) []).
  - reflexivity.
  - right. vm_compute. repeat constructor.
Defined.

(** C3 at a submission of 1001 letters. *)
Lemma home_post_length_limit_1001 :
  length (trimmed_data (post (replicate 1001 0x61))) = 1001%nat
  /\ serve_home fixed_png_library [] (post (replicate 1001 0x61)) []
     = (too_long_response, []).
Proof.
  split; [by vm_compute|].
  destruct (home_post_length_limit fixed_png_library [] (post (replicate 1001 0x61)) [])
    as (_ & _ & H1001 & _); [reflexivity|].
  apply H1001. by vm_compute.
Defined.

(** C3, as stated, fails at the boundary: a thousand grinning faces are a
    trimmed value of exactly 1000 characters, but 4000 bytes fit no QR
    symbol; with a library that raises on overflow the response is not
    HTTP 200. *)
Lemma home_post_thousand_overflow :
  length (trimmed_data (post grin_1000)) = 1000%nat
  /\ ~ exists inner extra,
        status (fst (serve_home (capacity_checked inner) extra (post grin_1000) [])) = 200.
Proof.
  split; [by vm_compute|].
  intros (inner & extra & H). vm_compute in H. discriminate.
Qed.

(** C4 at the submission ["hi"], where the framework had set [no-cache]. *)
Lemma home_post_success_no_store_hi :
  headers_getlist "Cache-Control"
    (hdrs (fst (serve_home fixed_png_library [("Cache-Control", "no-cache")]
                  (post (lit "hi")) [])))
  = ["no-store"].
Proof.
  apply (home_post_success_no_store fixed_png_library [("Cache-Control", "no-cache")]
           (post (lit "hi")) []); reflexivity.
Defined.

(** C5 at the string [" hi "], with a library that answers. *)
Lemma generate_qr_code_buffer_hi :
  exists buffer,
    generate_qr_code fixed_png_library (lit " hi ") [] = (inr buffer, [lit " hi "])
    /\ BytesIO.getvalue buffer = png_signature
    /\ BytesIO.tell buffer = 0%nat
    /\ BytesIO.remaining buffer = png_signature
    /\ (png_signature `prefix_of` png_signature ->
        png_signature `prefix_of` BytesIO.remaining buffer).
Proof.
  apply (generate_qr_code_buffer fixed_png_library (lit " hi ") [] png_signature).
  reflexivity.
Defined.

(** C5, as stated, fails: three thousand letters e with acute are a
    non-empty string of 6000 bytes, which fit no QR symbol; with a library
    that raises on overflow the adapter returns no buffer. *)
Lemma generate_qr_code_overflow :
  e_acute_3000 <> []
  /\ ~ exists inner buffer log',
        generate_qr_code (capacity_checked inner) e_acute_3000 [] = (inr buffer, log').
Proof.
  split; [by vm_compute|].
  intros (inner & buffer & log' & H). vm_compute in H. discriminate.
Qed.

(** C6 at the string ["YES"]. *)
Lemma is_truthy_iff_yes :
  is_truthy no_case (lit "YES") = true <-> map ascii_lower (lit "YES") ∈ truthy_list.
Proof.
  apply (is_truthy_iff no_case (lit "YES")). repeat constructor.
Defined.

(** C7 at the empty environment. *)
Lemma startup_defaults_empty :
  startup no_case (fun _ => None) ∅
    = Some {| debug_mode := false; host := lit "0.0.0.0"; port := 5000 |}
  /\ is_truthy no_case (lit "False") = false.
Proof.
  apply (startup_defaults no_case (fun _ => None) ∅); reflexivity.
Defined.

(** C10 at a submission of 1001 spaces: longer than the limit, yet empty
    once trimmed. *)
Lemma home_post_checks_trimmed_spaces :
  (1000 < length (replicate 1001 0x20))%nat
  /\ serve_home fixed_png_library [] (post (replicate 1001 0x20)) []
     = (empty_input_response, []).
Proof.
  split; [vm_compute; lia|].
  destruct (home_post_checks_trimmed fixed_png_library [] (post (replicate 1001 0x20)) [])
    as (Hempty & _); [reflexivity|].
  apply Hempty. by vm_compute.
Defined.

(** ** The further properties at concrete inputs *)

(** X1 at a submission of a space, a tab and a space. *)
Lemma json_error_iff_blank_tab :
  fst (serve_home fixed_png_library [] (post [0x20; 0x09; 0x20]) []) = empty_input_response
  <-> blank (raw_data (post [0x20; 0x09; 0x20])).
Proof.
  apply (json_error_iff_blank fixed_png_library [] (post [0x20; 0x09; 0x20]) []).
  reflexivity.
Defined.

(** X3 at the submission ["hi"]. *)
Lemma post_status_cases_hi :
  status (fst (serve_home fixed_png_library [] (post (lit "hi")) [])) = 200
  <-> trimmed_data (post (lit "hi")) <> []
      /\ (length (trimmed_data (post (lit "hi"))) <= 1000)%nat
      /\ exists png, fixed_png_library (adapter_job (trimmed_data (post (lit "hi")))) = inr png.
Proof.
  destruct (post_status_cases fixed_png_library [] (post (lit "hi")) [] eq_refl)
    as (_ & H200 & _).
  exact H200.
Defined.

(** X5 at a thousand letters between nothing. *)
Lemma short_raw_never_too_long_thousand :
  fst (serve_home fixed_png_library [] (post (replicate 1000 0x61)) []) <> too_long_response.
Proof.
  apply (short_raw_never_too_long fixed_png_library [] (post (replicate 1000 0x61)) []).
  - reflexivity.
  - vm_compute. lia.
Defined.

(** X6 at a form with a field before and a second [data] after. *)
Lemma only_first_data_field_three :
  serve_home fixed_png_library []
    {| method := "POST";
       form := [(lit "name", lit "x")] ++ (lit "data", lit "hi") :: [(lit "data", lit "other")] |} []
  = serve_home fixed_png_library [] {| method := "POST"; form := [(lit "data", lit "hi")] |} [].
Proof.
  apply (only_first_data_field fixed_png_library [] "POST"
           [(lit "name", lit "x")] [(lit "data", lit "other")] (lit "hi") []).
  intros w Hw. apply list_elem_of_singleton in Hw. discriminate Hw.
Defined.

(** X7 at ["hi"] between two spaces and a line end. *)
Lemma padding_ignored_hi :
  serve_home fixed_png_library [] (post ([0x20; 0x20] ++ lit "hi" ++ [0x0D; 0x0A])) []
  = serve_home fixed_png_library [] (post (lit "hi")) [].
Proof.
  apply (padding_ignored fixed_png_library [] [0x20; 0x20] (lit "hi") [0x0D; 0x0A] []);
    repeat constructor.
Defined.

(** X8 at the submission ["hi"], for the field [Content-Length]. *)
Lemma other_headers_kept_length :
  headers_getlist "Content-Length"
    (hdrs (fst (serve_home fixed_png_library
                  [("Cache-Control", "no-cache"); ("Content-Length", "8")]
                  (post (lit "hi")) [])))
  = ["8"].
Proof.
  destruct (other_headers_kept fixed_png_library
              [("Cache-Control", "no-cache"); ("Content-Length", "8")]
              (post (lit "hi")) [] "Content-Length") as [Hkept _]; [reflexivity..|].
  exact Hkept.
Defined.

(** X9 at [" hi "]. *)
Lemma adapter_padding_ignored_hi :
  fst (generate_qr_code fixed_png_library ([0x20] ++ lit "hi" ++ [0x20]) [])
  = fst (generate_qr_code fixed_png_library (lit "hi") []).
Proof.
  destruct (adapter_padding_ignored fixed_png_library [0x20] (lit "hi") [0x20] [])
    as (_ & Hsame & _); [repeat constructor..|].
  exact Hsame.
Defined.

(** X10 at ["true"] with a space before or after. *)
Lemma is_truthy_untrimmed_true :
  is_truthy no_case (0x20 :: lit "true") = false
  /\ is_truthy no_case (lit "true" ++ [0x20]) = false.
Proof.
  apply (is_truthy_untrimmed no_case 0x20 (lit "true")); reflexivity.
Defined.

(** X12 at the variable [PATH]. *)
Lemma startup_ignores_others_path :
  startup no_case decimal (<["PATH" := lit "/usr/bin"]> sample_environ)
    = startup no_case decimal sample_environ
  /\ startup no_case decimal (delete "PATH" sample_environ)
    = startup no_case decimal sample_environ.
Proof.
  apply (startup_ignores_others no_case decimal sample_environ "PATH" (lit "/usr/bin"));
    discriminate.
Defined.

(** X13 at an environment that sets all three variables. *)
Lemma startup_reads_environment_sample :
  startup no_case decimal sample_environ
    = Some {| debug_mode := true; host := lit "127.0.0.1"; port := 8080 |}
  /\ forall h, sample_environ !! "FLASK_RUN_HOST" = Some h -> lit "127.0.0.1" = h.
Proof.
  split; [by vm_compute|].
  destruct (startup_reads_environment no_case decimal sample_environ
              {| debug_mode := true; host := lit "127.0.0.1"; port := 8080 |})
    as (_ & Hhost & _); [by vm_compute|].
  exact Hhost.
Defined.

(** A port that is no number stops the start-up; an unset one does not. *)
Example startup_bad_port :
  startup no_case decimal (<["FLASK_RUN_PORT" := lit "80a"]> sample_environ) = None
  /\ startup no_case decimal (delete "FLASK_RUN_PORT" sample_environ)
     = Some {| debug_mode := true; host := lit "127.0.0.1"; port := 5000 |}.
Proof. by vm_compute. Qed.
